(** * Verification of [step_verify.py] (sutyum/llm-verify)

    A shallow embedding of the step-verification pipeline:
    - [rationale_to_steps], the regex based segmenter;
    - the two verifier strategies [JudgeLmVerifier] and
      [BertClassifierVerifier];
    - [VerifiedQA.__init__] and [VerifiedQA.forward], with the calls to the
      generation backend as parameters and the [ThreadPoolExecutor.map]
      fan-out modelled over an arbitrary completion order.

    Python floats are modelled by Rocq's primitive binary64 floats, Python
    strings by Rocq strings (ASCII characters). *)

From Stdlib Require Import String Ascii List Bool Arith Lia Permutation.
From Stdlib Require Import Floats ZArith Uint63.
Import ListNotations.

Set Warnings "-inexact-float -register-all".

(* ================================================================= *)
(** ** The segmenter [rationale_to_steps] *)

Module Segmenter.

(** Character classes of Python's [re] module, restricted to ASCII.
    [\s] matches [ \t\n\v\f\r] and the separators [\x1c]..[\x1f]
    (exactly the ASCII characters for which [str.isspace] holds). *)
Definition is_space_char (c : ascii) : bool :=
  let n := nat_of_ascii c in
  (n =? 32) || ((9 <=? n) && (n <=? 13)) || ((28 <=? n) && (n <=? 31)).

Definition is_upper (c : ascii) : bool :=
  let n := nat_of_ascii c in (65 <=? n) && (n <=? 90).

Definition is_lower (c : ascii) : bool :=
  let n := nat_of_ascii c in (97 <=? n) && (n <=? 122).

Definition is_digit (c : ascii) : bool :=
  let n := nat_of_ascii c in (48 <=? n) && (n <=? 57).

(** [\w]: letters, digits and the underscore. *)
Definition is_word_char (c : ascii) : bool :=
  is_upper c || is_lower c || is_digit c || (c =? "_")%char.

(** The regex [.] matches every character but the newline. *)
Definition is_dot_any (c : ascii) : bool := negb (c =? "010")%char.

(** The pattern of [rationale_to_steps]:
      [(?<!\w\.\w.)(?<![A-Z][a-z]\.)(?<=\.|\?)\s]
    The match is the single whitespace character [c]; [prev] holds the
    characters before it, the nearest first ([prev = s[i-1] :: s[i-2] :: ...]).
    A lookbehind that needs more characters than [prev] has fails. *)
Definition lb_abbrev (prev : list ascii) : bool :=  (* \w\.\w. *)
  match prev with
  | p1 :: p2 :: p3 :: p4 :: _ =>
      is_word_char p4 && (p3 =? ".")%char && is_word_char p2 && is_dot_any p1
  | _ => false
  end.

Definition lb_title (prev : list ascii) : bool :=  (* [A-Z][a-z]\. *)
  match prev with
  | p1 :: p2 :: p3 :: _ => is_upper p3 && is_lower p2 && (p1 =? ".")%char
  | _ => false
  end.

Definition lb_boundary (prev : list ascii) : bool :=  (* \.|\? *)
  match prev with
  | p1 :: _ => (p1 =? ".")%char || (p1 =? "?")%char
  | [] => false
  end.

Definition split_here (prev : list ascii) (c : ascii) : bool :=
  negb (lb_abbrev prev) && negb (lb_title prev) && lb_boundary prev
  && is_space_char c.

(** [re.split(pattern, s)]: every match is one character, so the pieces
    are the maximal runs between matching positions. [cur] is the current
    piece, reversed. *)
Fixpoint split_go (prev cur : list ascii) (s : list ascii) : list (list ascii) :=
  match s with
  | [] => [rev cur]
  | c :: s' =>
      if split_here prev c then rev cur :: split_go (c :: prev) [] s'
      else split_go (c :: prev) (c :: cur) s'
  end.

Definition re_split (s : list ascii) : list (list ascii) := split_go [] [] s.

(** [sentence.count(" ")] *)
Definition count_space (s : list ascii) : nat :=
  List.length (List.filter (fun c => (c =? " ")%char) s).

(** [rationale_to_steps(rationale, max_spaces=2)] *)
Definition rationale_to_steps_gen (rationale : string) (max_spaces : nat)
  : list string :=
  map string_of_list_ascii
    (filter (fun sentence => max_spaces <=? count_space sentence)
       (re_split (list_ascii_of_string rationale))).

Definition rationale_to_steps (rationale : string) : list string :=
  rationale_to_steps_gen rationale 2.

(** [str.split()] without argument: the words of a string. *)
Fixpoint words_go (cur : list ascii) (s : list ascii) : list (list ascii) :=
  match s with
  | [] => match cur with [] => [] | _ => [rev cur] end
  | c :: s' =>
      if is_space_char c then
        match cur with [] => words_go [] s' | _ => rev cur :: words_go [] s' end
      else words_go (c :: cur) s'
  end.

Definition word_count (s : string) : nat :=
  List.length (words_go [] (list_ascii_of_string s)).

(** Scanning [p] after the characters [prev] meets no split point. *)
Fixpoint no_split (prev : list ascii) (p : list ascii) : bool :=
  match p with
  | [] => true
  | c :: p' => negb (split_here prev c) && no_split (c :: prev) p'
  end.

(** A scanning context is either the start of the string or ends just
    after a whitespace character. *)
Definition fresh_context (ctx : list ascii) : Prop :=
  ctx = [] \/ exists w r, ctx = w :: r /\ is_space_char w = true.

(** [re.findall(pattern, s)]: the matched separators, in order. *)
Fixpoint findall_go (prev : list ascii) (s : list ascii) : list ascii :=
  match s with
  | [] => []
  | c :: s' =>
      if split_here prev c then c :: findall_go (c :: prev) s'
      else findall_go (c :: prev) s'
  end.

Definition re_findall (s : list ascii) : list ascii := findall_go [] s.

(** The pieces of a split put back together with the separators between
    them. *)
Fixpoint interleave (pieces : list (list ascii)) (seps : list ascii) : list ascii :=
  match pieces, seps with
  | [], _ => []
  | p :: _, [] => p
  | p :: ps, w :: ws => p ++ w :: interleave ps ws
  end.

End Segmenter.

(* ================================================================= *)
(** ** Annotations, Python values and the verifier strategies *)

Module Verifiers.

Local Open Scope string_scope.

(** [class StepAnnotation(str, Enum)] *)
Inductive StepAnnotation :=
| ESSENTIAL_AND_VALID
| UNNECESSARY
| LOGICALLY_FALSE
| NOT_BACKED_BY_PRIOR_FACTS
| BAD_DEDUCTIVE_REASONING
| DOES_NOT_SEEM_RIGHT.

(** A member of a [str] enum is the [str] of its value. *)
Definition annotation_value (a : StepAnnotation) : string :=
  match a with
  | ESSENTIAL_AND_VALID => "essential_valid"
  | UNNECESSARY => "unnecessary"
  | LOGICALLY_FALSE => "logically_false"
  | NOT_BACKED_BY_PRIOR_FACTS => "not_backed_by_prior_facts"
  | BAD_DEDUCTIVE_REASONING => "bad_deductive_reasoning"
  | DOES_NOT_SEEM_RIGHT => "does_not_seem_right"
  end.

(** [class VerificationStrategy(str, Enum)] *)
Inductive VerificationStrategy := LLM_AS_A_JUDGE | RM_MODEL | BERT_CLASSIFIER.

(** The Python values compared with [==] in [VerifiedQA.forward]. *)
Inductive pyval :=
| PyStr (s : string)
| PyFloat (f : float)
| PyTuple (items : list pyval).

(** Python's [==] on these values: [str] with [str] and [float] with [float]
    by value, tuples item by item; values of different types are unequal
    ([tuple.__eq__(str)] and [str.__eq__(tuple)] are [NotImplemented], and
    the fallback identity test fails). *)
Fixpoint py_eq (v w : pyval) : bool :=
  match v, w with
  | PyStr s, PyStr t => String.eqb s t
  | PyFloat f, PyFloat g => PrimFloat.eqb f g
  | PyTuple vs, PyTuple ws =>
      (fix items_eq (vs ws : list pyval) : bool :=
         match vs, ws with
         | [], [] => true
         | v :: vs', w :: ws' => py_eq v w && items_eq vs' ws'
         | _, _ => false
         end) vs ws
  | _, _ => false
  end.

(** The [Tuple[StepAnnotation, int]] returned by [verify_step]: the
    annotation is a [str] (an enum member or the judge's raw output) and the
    score a float. *)
Definition verdict := (string * float)%type.

Definition verdict_to_py (v : verdict) : pyval :=
  PyTuple [PyStr (fst v); PyFloat (snd v)].

(** The [StepVerifierType] protocol: a type tag and [verify_step], whose
    arguments are in the order [objective, step_to_be_verified,
    reasoning_chain, chat_history]. *)
Record StepVerifier := {
  verifier_type : VerificationStrategy;
  verify_step : string -> string -> list string -> list string -> verdict
}.

(** ["sep".join(items)] *)
Fixpoint join (sep : string) (items : list string) : string :=
  match items with
  | [] => ""
  | [x] => x
  | x :: rest => x ++ sep ++ join sep rest
  end.

Definition nl : string := String (ascii_of_nat 10) "".

(** The conversion of an [int] operand of [int * float] ([PyLong_AsDouble]):
    the nearest binary64 value, ties to even; [None] when that value
    overflows the binary64 range, where Python raises [OverflowError]. *)
Definition float_of_int (n : Z) : option float :=
  match SpecFloat.binary_normalize 53 1024 n 0 false with
  | S754_infinity _ => None
  | f => Some (SF2Prim f)
  end.

(** *** [JudgeLmVerifier] *)

(** The structured output of [TypedChainOfThought(StepVerfication)]. *)
Record Judgement := {
  step_annotation : string;
  step_rating : Z
}.

(** The judge model, called with [objective], [step_to_be_verified], the
    joined [reasoning_chain] and [chat_history]. *)
Record JudgeLmVerifier := {
  llm_judge : string -> string -> string -> list string -> Judgement
}.

(** [None] is the [OverflowError] of [judgement.step_rating * 0.2] for a
    rating beyond the binary64 range. *)
Definition judge_verify_step (j : JudgeLmVerifier) (objective step_to_be_verified : string)
    (reasoning_chain chat_history : list string) : option verdict :=
  let judgement :=
    llm_judge j objective step_to_be_verified
      (join (nl ++ "  - ") reasoning_chain) chat_history in
  match float_of_int (step_rating judgement) with
  | None => None
  | Some rating => Some (step_annotation judgement, (rating * 0.2)%float)
  end.

(** *** [BertClassifierVerifier] *)

(** [bert_model] stands for the tokenizer and the sequence classifier
    together: the [.logits[0][0].item()] score of the pair
    [(instruction, response)]. *)
Record BertClassifierVerifier := {
  bert_model : string -> string -> float;
  threshold : float;
  debug : bool
}.

(** The constructor with its defaults [threshold=0.7], [debug=True]. *)
Definition mk_BertClassifierVerifier (model : string -> string -> float)
  : BertClassifierVerifier :=
  {| bert_model := model; threshold := 0.7; debug := true |}.

Definition bert_instruction (objective step_to_be_verified : string)
    (chat_history : list string) : string :=
  "Does the following answer meet the objective behind user's messages?"
  ++ nl ++ nl ++ "        Objectives: " ++ objective ++ nl ++ "        "
  ++ join nl (app chat_history ["Answer: " ++ step_to_be_verified]).

Definition bert_verify_step (b : BertClassifierVerifier)
    (objective step_to_be_verified : string)
    (reasoning_chain chat_history : list string) : StepAnnotation * float :=
  let instruction := bert_instruction objective step_to_be_verified chat_history in
  let response := step_to_be_verified in
  let score := bert_model b instruction response in
  (if (score <=? threshold b)%float then DOES_NOT_SEEM_RIGHT
   else ESSENTIAL_AND_VALID,
   score).

Definition BertClassifierVerifier_as_step_verifier (b : BertClassifierVerifier)
  : StepVerifier :=
  {| verifier_type := BERT_CLASSIFIER;
     verify_step := fun o s c h =>
       let '(a, score) := bert_verify_step b o s c h in (annotation_value a, score) |}.

(** A judge whose model always answers [rating]. *)
Definition constant_judge (annotation : string) (rating : Z) : JudgeLmVerifier :=
  {| llm_judge := fun _ _ _ _ =>
       {| step_annotation := annotation; step_rating := rating |} |}.

End Verifiers.

(* ================================================================= *)
(** ** [ThreadPoolExecutor.map] *)

Module Pool.

(** [l[i] = x] on the list of futures, for an index in range. *)
Fixpoint list_set {A} (i : nat) (x : A) (l : list A) : list A :=
  match l, i with
  | [], _ => []
  | _ :: l', O => x :: l'
  | y :: l', S i' => y :: list_set i' x l'
  end.

(** [executor.map(fn, xs)] submits one future per item; the workers run
    them in some completion order [sched] (a list of item indices), each
    storing [fn(xs[i])], a result or a raised exception, in its future. The
    caller then reads [fs[i].result()] for [i] in input order: the first
    exception met in input order is re-raised. A future that was never run
    leaves the read pending ([None]). *)
Definition run_schedule {A B E} (fn : A -> E + B) (xs : list A) (sched : list nat)
  : list (option (E + B)) :=
  fold_left
    (fun futures i =>
       match nth_error xs i with
       | Some x => list_set i (Some (fn x)) futures
       | None => futures
       end)
    sched (repeat None (length xs)).

Fixpoint collect {B E} (futures : list (option (E + B))) : option (E + list B) :=
  match futures with
  | [] => Some (inr [])
  | None :: _ => None
  | Some (inl e) :: _ => Some (inl e)
  | Some (inr b) :: rest =>
      match collect rest with
      | Some (inr bs) => Some (inr (b :: bs))
      | r => r
      end
  end.

Definition pool_map {A B E} (fn : A -> E + B) (xs : list A) (sched : list nat)
  : option (E + list B) :=
  collect (run_schedule fn xs sched).

(** The sequential [list(map(fn, xs))], raising the first exception. *)
Fixpoint map_seq {A B E} (fn : A -> E + B) (xs : list A) : E + list B :=
  match xs with
  | [] => inr []
  | x :: xs' =>
      match fn x with
      | inl e => inl e
      | inr b =>
          match map_seq fn xs' with
          | inl e => inl e
          | inr bs => inr (b :: bs)
          end
      end
  end.

(** The futures once the tasks of the indices in [done] have run: the
    future of item [k + i] holds [fn(xs[i])] exactly when [k + i] is in
    [done]. *)
Fixpoint futures_after {A B E} (fn : A -> E + B) (k : nat) (done : list nat)
    (xs : list A) : list (option (E + B)) :=
  match xs with
  | [] => []
  | x :: xs' =>
      (if existsb (Nat.eqb k) done then Some (fn x) else None)
      :: futures_after fn (S k) done xs'
  end.

End Pool.

(* ================================================================= *)
(** ** [VerifiedQA] *)

Module Orchestrator.

Import Verifiers Pool.
Local Open Scope string_scope.

(** [class MessageWithUnderstanding(dspy.BaseModel)] *)
Record MessageWithUnderstanding := {
  clear_rephrasing_of_message : string;
  why_is_user_asking_this : string;
  what_is_user_objective : string;
  message_decomposition : list string
}.

(** The [rationale] and [answer] fields of the prediction of [Task]. *)
Record Prediction := {
  rationale : string;
  answer : string
}.

(** [VerifiedQA.__init__]: the objective verifier defaults to the step
    verifier when [objective_verifier == None]. *)
Record VerifiedQA := {
  step_verifier : StepVerifier;
  objective_verifier : StepVerifier
}.

Definition VerifiedQA_init (step_verifier : StepVerifier)
    (objective_verifier : option StepVerifier) : VerifiedQA :=
  {| step_verifier := step_verifier;
     objective_verifier :=
       match objective_verifier with
       | None => step_verifier
       | Some v => v
       end |}.

(** The exceptions [dspy.Assert] and [dspy.Suggest] raise on a false
    [result]; [PoolPending] is a read of a future that never ran. *)
Inductive Failure :=
| DSPyAssertionError (msg : string)
| DSPySuggestionError (msg : string)
| PoolPending.

Definition assert_msg : string :=
  "There should atleast be 2 steps in our rationale, or its probably not a good rationale.".
Definition step_suggest_msg : string :=
  "Each step in the thought process must be necessary for reaching an answer and be logically and factually valid.".
Definition objective_suggest_msg : string :=
  "The answer must meet the user's objectives.".

(** [dspy.Suggest(result, msg)]: a true [result] passes; a false one raises
    [DSPySuggestionError], unless [dspy.settings.bypass_suggest] is set in
    the calling thread, in which case the failure is only logged.
    ([dspy.Assert] is kept as always raising: [bypass_assert] is [False] by
    default and [backtrack_handler] sets it to [False] on its last attempt.) *)
Definition dspy_suggest (bypass_suggest result : bool) (msg : string) : option Failure :=
  if result then None
  else if bypass_suggest then None
  else Some (DSPySuggestionError msg).

(** The calls [forward] makes to its collaborators, in order. *)
Inductive Event :=
| EvUnderstand (chat : list string) (new_message : string)
| EvTask (message : string)
| EvFanOut (steps : list string)
| EvConversational (raw_message_from_user structured_message rationale : string)
| EvVerifyObjective (objective step_to_be_verified : string)
    (reasoning_chain chat_history : list string) (result : verdict).

Section Forward.

(** The generation backend: [self.message_understanding],
    [str(structured_message)], [self.task] and [self.conversational]. *)
Variable message_understanding : list string -> string -> MessageWithUnderstanding.
Variable str_of_message : MessageWithUnderstanding -> string.
Variable task : string -> Prediction.
Variable conversational : string -> string -> string -> string.

(** [dspy.settings.bypass_suggest] as seen by the thread running [forward]
    and by the pool threads running [process_step] (dspy keeps its settings
    per thread; [chat]'s [backtrack_handler] sets it on its last attempt). *)
Variable bypass_suggest : bool.
Variable worker_bypass_suggest : bool.

(** [process_step] of [forward]. *)
Definition process_step (qa : VerifiedQA) (structured_message : MessageWithUnderstanding)
    (chat_history : list string) (message : string) (steps : list string)
    (step : string) : Failure + (string * float) :=
  let '(annotation, score) :=
    verify_step (step_verifier qa) (what_is_user_objective structured_message) step
      steps (app chat_history [message]) in
  match dspy_suggest worker_bypass_suggest
          (String.eqb annotation (annotation_value ESSENTIAL_AND_VALID))
          step_suggest_msg with
  | Some e => inl e
  | None => inr (step, score)
  end.

(** The final [dspy.Suggest] test
    [objective_annotation == StepAnnotation.ESSENTIAL_AND_VALID], where
    [objective_annotation] is the tuple returned by [verify_step]. *)
Definition objective_suggest_result (objective_annotation : verdict) : bool :=
  py_eq (verdict_to_py objective_annotation)
    (PyStr (annotation_value ESSENTIAL_AND_VALID)).

(** One call of [VerifiedQA.forward(message, chat_history)], with the step
    verifications completing in the order [sched]. It returns the calls it
    made and either the raised exception or [(chosen_steps, response)]. *)
Definition forward (qa : VerifiedQA) (sched : list nat) (message : string)
    (chat_history : list string)
  : list Event * (Failure + (list (string * float) * string)) :=
  let structured_message := message_understanding chat_history message in
  let ans := task (str_of_message structured_message) in
  let steps := Segmenter.rationale_to_steps (rationale ans) in
  let trace := [EvUnderstand chat_history message;
                EvTask (str_of_message structured_message)] in
  if negb (2 <? List.length steps)%nat
  then (trace, inl (DSPyAssertionError assert_msg))
  else
  let trace := app trace [EvFanOut steps] in
  match pool_map (process_step qa structured_message chat_history message steps)
          steps sched with
  | None => (trace, inl PoolPending)
  | Some (inl e) => (trace, inl e)
  | Some (inr chosen_steps) =>
      let response :=
        conversational message (str_of_message structured_message) (answer ans) in
      let trace := app trace
        [EvConversational message (str_of_message structured_message) (answer ans)] in
      let objective := what_is_user_objective structured_message in
      let objective_annotation :=
        verify_step (objective_verifier qa) objective response steps chat_history in
      let trace := app trace
        [EvVerifyObjective objective response steps chat_history objective_annotation] in
      match dspy_suggest bypass_suggest (objective_suggest_result objective_annotation)
              objective_suggest_msg with
      | Some e => (trace, inl e)
      | None => (trace, inr (chosen_steps, response))
      end
  end.

End Forward.

End Orchestrator.

(* ================================================================= *)
(** ** A concrete collaborator set, used to run [forward] *)

Module Demo.

Import Verifiers Orchestrator.
Local Open Scope string_scope.

Definition demo_understanding (chat : list string) (new_message : string)
  : MessageWithUnderstanding :=
  {| clear_rephrasing_of_message := "";
     why_is_user_asking_this := "The user wants to build something.";
     what_is_user_objective := "build a go-kart";
     message_decomposition := [new_message] |}.

Definition demo_str (m : MessageWithUnderstanding) : string :=
  what_is_user_objective m.

Definition demo_rationale : string :=
  "First, gather materials. Next, assemble the frame. Then attach the engine.".

Definition demo_task (message : string) : Prediction :=
  {| rationale := demo_rationale; answer := "Build the frame, then fit the engine." |}.

(** A response generator that returns its [rationale] argument. *)
Definition demo_conversational (raw structured rat : string) : string := rat.

(** The classifier verifier with a model that scores every pair [1.0]. *)
Definition accepting_verifier : StepVerifier :=
  BertClassifierVerifier_as_step_verifier
    (mk_BertClassifierVerifier (fun _ _ => 1.0%float)).

(** The classifier verifier with a model that scores every pair [0.0]. *)
Definition rejecting_verifier : StepVerifier :=
  BertClassifierVerifier_as_step_verifier
    (mk_BertClassifierVerifier (fun _ _ => 0.0%float)).

End Demo.

(* ================================================================= *)
(** * Properties of the segmenter *)

Module SegmenterFacts.

Import Segmenter.

Example segment_spec_example :
  rationale_to_steps
    "First, gather materials. Next, assemble the frame. Then attach the engine."
  = ["First, gather materials."; "Next, assemble the frame.";
     "Then attach the engine."]%string.
Proof. reflexivity. Qed.

Example segment_abbrev_example :
  rationale_to_steps "Ask Dr. Smith about it. We use e.g. tools here."
  = ["Ask Dr. Smith about it."; "We use e.g. tools here."]%string.
Proof. reflexivity. Qed.

Example segment_short_fragment_dropped :
  rationale_to_steps "Yes. It is so. Fine then." = ["It is so."]%string.
Proof. reflexivity. Qed.

(** A whitespace character is none of the characters the lookbehinds
    test for. *)
Lemma space_char_classes (w : ascii) :
  is_space_char w = true ->
  is_word_char w = false /\ is_upper w = false /\ is_lower w = false
  /\ (w =? ".")%char = false /\ (w =? "?")%char = false.
Proof.
  intros Hw.
  assert (Hcl : forall lo hi : nat, (32 < lo)%nat ->
            ((lo <=? nat_of_ascii w) && (nat_of_ascii w <=? hi))%nat = false).
  { intros lo hi Hlo. unfold is_space_char in Hw.
    destruct (Nat.leb_spec lo (nat_of_ascii w)); [|reflexivity].
    exfalso. repeat rewrite Bool.orb_true_iff in Hw. repeat rewrite Bool.andb_true_iff in Hw.
    rewrite Nat.eqb_eq, !Nat.leb_le in Hw. lia. }
  assert (Hne : forall d, is_space_char d = false -> (w =? d)%char = false).
  { intros d Hd. destruct (Ascii.eqb_spec w d) as [->|]; [congruence | reflexivity]. }
  unfold is_word_char, is_upper, is_lower, is_digit.
  rewrite !Hcl by lia.
  rewrite !Hne by reflexivity.
  repeat split.
Qed.

(** The lookbehinds never see past a whitespace character: the context
    before it is irrelevant. *)
Lemma split_here_after_space (w c : ascii) (l r : list ascii) :
  is_space_char w = true ->
  split_here (l ++ w :: r) c = split_here l c.
Proof.
  intros Hw. destruct (space_char_classes w Hw) as (Hword & Hup & Hlow & Hdot & Hq).
  unfold split_here, lb_abbrev, lb_title, lb_boundary.
  destruct l as [|p1 [|p2 [|p3 [|p4 l]]]]; destruct r as [|a1 [|a2 r]]; simpl;
    rewrite ?Hword, ?Hup, ?Hlow, ?Hdot, ?Hq;
    rewrite ?Bool.andb_false_r, ?Bool.andb_false_l; simpl;
    reflexivity.
Qed.

Lemma no_split_after_space (w : ascii) (r : list ascii) :
  is_space_char w = true ->
  forall p l, no_split (l ++ w :: r) p = no_split l p.
Proof.
  intros Hw p. induction p as [|c p IH]; intros l; simpl; [reflexivity|].
  rewrite split_here_after_space by exact Hw.
  rewrite <- (IH (c :: l)). reflexivity.
Qed.

Lemma no_split_app (a b prev : list ascii) :
  no_split prev (a ++ b) = no_split prev a && no_split (rev a ++ prev) b.
Proof.
  revert prev. induction a as [|c a IH]; intros prev; simpl; [reflexivity|].
  rewrite IH, <- app_assoc. simpl. apply Bool.andb_assoc.
Qed.

Lemma split_go_no_split (p prev cur : list ascii) :
  no_split prev p = true -> split_go prev cur p = [rev cur ++ p].
Proof.
  revert prev cur. induction p as [|c p IH]; intros prev cur H; simpl in *.
  - rewrite app_nil_r. reflexivity.
  - apply andb_prop in H as [Hc Hp]. apply Bool.negb_true_iff in Hc. rewrite Hc.
    rewrite IH by exact Hp. simpl. rewrite <- app_assoc. reflexivity.
Qed.

Lemma fresh_context_no_split (ctx q : list ascii) :
  fresh_context ctx -> no_split ctx q = no_split [] q.
Proof.
  intros [-> | (w & r & -> & Hw)]; [reflexivity|].
  apply (no_split_after_space w r Hw q []).
Qed.

Lemma split_go_pieces (s ctx cur : list ascii) :
  fresh_context ctx -> no_split ctx (rev cur) = true ->
  forall q, In q (split_go (cur ++ ctx) cur s) -> no_split [] q = true.
Proof.
  revert ctx cur. induction s as [|c s IH]; intros ctx cur Hctx Hcur q Hq; simpl in Hq.
  - destruct Hq as [<- | []]. rewrite <- (fresh_context_no_split ctx); assumption.
  - destruct (split_here (cur ++ ctx) c) eqn:Hsplit.
    + destruct Hq as [<- | Hq].
      * rewrite <- (fresh_context_no_split ctx); assumption.
      * apply (IH (c :: cur ++ ctx) []); [| reflexivity | exact Hq].
        right. exists c, (cur ++ ctx). split; [reflexivity|].
        unfold split_here in Hsplit. apply andb_prop in Hsplit. apply Hsplit.
    + apply (IH ctx (c :: cur)); [exact Hctx | | exact Hq].
      simpl. rewrite no_split_app, Hcur, rev_involutive. simpl.
      rewrite Hsplit. reflexivity.
Qed.

Lemma re_split_piece_no_split (s q : list ascii) :
  In q (re_split s) -> no_split [] q = true.
Proof.
  apply (split_go_pieces s [] []); [left; reflexivity | reflexivity].
Qed.

Lemma re_split_no_split (q : list ascii) :
  no_split [] q = true -> re_split q = [q].
Proof. intros H. unfold re_split. rewrite (split_go_no_split q [] [] H). reflexivity. Qed.

(** C9: the segmenter is idempotent on its own output. Every step [s] it
    returns is re-segmented into exactly [[s]] (the zero-step alternative of
    the claim never arises: a returned step already has two spaces). *)
Theorem rationale_to_steps_idempotent (r s : string) :
  In s (rationale_to_steps r) -> rationale_to_steps s = [s].
Proof.
  unfold rationale_to_steps, rationale_to_steps_gen. intros Hin.
  apply in_map_iff in Hin as (q & <- & Hq).
  apply filter_In in Hq as [Hq Hcount].
  rewrite list_ascii_of_string_of_list_ascii.
  rewrite (re_split_no_split q (re_split_piece_no_split _ q Hq)).
  cbn [filter]. rewrite Hcount. reflexivity.
Qed.

Lemma rationale_to_steps_idempotent_witness :
  In "Next, assemble the frame."%string
     (rationale_to_steps
        "First, gather materials. Next, assemble the frame. Then attach the engine.")
  /\ rationale_to_steps "Next, assemble the frame."
     = ["Next, assemble the frame."%string].
Proof.
  split.
  - simpl. right. left. reflexivity.
  - apply (rationale_to_steps_idempotent
             "First, gather materials. Next, assemble the frame. Then attach the engine.").
    simpl. right. left. reflexivity.
Defined.

(** C6 (as stated, refuted): a double space after a sentence end leaves a
    leading space in the next fragment, which then counts towards the two
    spaces: the step [" Do it."] is kept although it has two words. *)
Lemma rationale_to_steps_two_word_step :
  rationale_to_steps "Gather the tools.  Do it."
  = ["Gather the tools."; " Do it."]%string
  /\ In " Do it."%string (rationale_to_steps "Gather the tools.  Do it.")
  /\ word_count " Do it." = 2.
Proof. split; [reflexivity | split; [simpl; auto | reflexivity]]. Qed.

(** C6 (amended): the returned steps are exactly the split fragments with
    at least two space characters [' '], counted anywhere in the fragment;
    every returned step is therefore non-empty. *)
Theorem rationale_to_steps_space_filter (r s : string) :
  (In s (rationale_to_steps r) <->
   exists p, In p (re_split (list_ascii_of_string r))
             /\ 2 <= count_space p /\ s = string_of_list_ascii p)
  /\ (In s (rationale_to_steps r) ->
      2 <= count_space (list_ascii_of_string s) /\ s <> EmptyString).
Proof.
  unfold rationale_to_steps, rationale_to_steps_gen.
  assert (Hiff : In s (map string_of_list_ascii
                         (filter (fun sentence => 2 <=? count_space sentence)
                            (re_split (list_ascii_of_string r)))) <->
                 exists p, In p (re_split (list_ascii_of_string r))
                           /\ 2 <= count_space p /\ s = string_of_list_ascii p).
  { rewrite in_map_iff. split.
    - intros (p & <- & Hp). apply filter_In in Hp as [Hp Hc].
      apply Nat.leb_le in Hc. exists p. split; [exact Hp | split; [exact Hc | reflexivity]].
    - intros (p & Hp & Hc & ->). exists p. split; [reflexivity|].
      apply filter_In. split; [exact Hp | apply Nat.leb_le; exact Hc]. }
  split; [exact Hiff|].
  intros Hin. apply Hiff in Hin as (p & _ & Hc & ->).
  rewrite list_ascii_of_string_of_list_ascii. split; [exact Hc|].
  destruct p as [|c p]; [unfold count_space in Hc; simpl in Hc; lia | discriminate].
Qed.

End SegmenterFacts.

(* ================================================================= *)
(** * Properties of the verifier strategies *)

Module VerifierFacts.

Import Verifiers.

Lemma pos_compare_cont_swap (m1 m2 : positive) :
  Pos.compare_cont Eq m2 m1 = CompOpp (Pos.compare_cont Eq m1 m2).
Proof. rewrite (Pos.compare_cont_antisym m1 m2 Eq). reflexivity. Qed.

(** Comparison of binary64 values is antisymmetric. *)
Lemma SFcompare_swap (x y : spec_float) :
  SFcompare y x = option_map CompOpp (SFcompare x y).
Proof.
  destruct x as [sx|sx| |sx mx ex], y as [sy|sy| |sy my ey];
    try destruct sx; try destruct sy; simpl; try reflexivity;
    rewrite (Z.compare_antisym ex ey), (pos_compare_cont_swap mx my);
    destruct (Z.compare ex ey); destruct (Pos.compare_cont Eq mx my);
    reflexivity.
Qed.

(** Python's [t < s] makes [s <= t] false. *)
Lemma float_ltb_leb_swap (t s : float) :
  (t <? s)%float = true -> (s <=? t)%float = false.
Proof.
  rewrite FloatAxioms.ltb_spec, FloatAxioms.leb_spec. unfold SFltb, SFleb.
  rewrite (SFcompare_swap (Prim2SF t) (Prim2SF s)).
  destruct (SFcompare (Prim2SF t) (Prim2SF s)) as [[| |]|]; simpl; congruence.
Qed.

(** C1: the classifier verifier thresholds its score: [score <= threshold]
    gives [DOES_NOT_SEEM_RIGHT], [score > threshold] gives
    [ESSENTIAL_AND_VALID], no other annotation is ever returned, and with
    the default threshold [0.7] a score of exactly [0.7] gives
    [DOES_NOT_SEEM_RIGHT]. *)
Theorem bert_verify_step_threshold (b : BertClassifierVerifier)
    (objective step_to_be_verified : string)
    (reasoning_chain chat_history : list string) :
  let '(annotation, score) :=
    bert_verify_step b objective step_to_be_verified reasoning_chain chat_history in
  ((score <=? threshold b)%float = true -> annotation = DOES_NOT_SEEM_RIGHT)
  /\ ((threshold b <? score)%float = true -> annotation = ESSENTIAL_AND_VALID)
  /\ (annotation = DOES_NOT_SEEM_RIGHT \/ annotation = ESSENTIAL_AND_VALID)
  /\ (threshold b = 0.7%float -> score = 0.7%float ->
      annotation = DOES_NOT_SEEM_RIGHT).
Proof.
  unfold bert_verify_step.
  set (score := bert_model b _ step_to_be_verified).
  destruct (score <=? threshold b)%float eqn:Hle.
  - repeat split; auto; intros Hlt.
    rewrite (float_ltb_leb_swap _ _ Hlt) in Hle. discriminate.
  - repeat split; auto.
    + intros H; discriminate.
    + intros Ht Hs. rewrite Ht, Hs in Hle. discriminate.
Qed.

Example bert_default_threshold (model : string -> string -> float) :
  threshold (mk_BertClassifierVerifier model) = 0.7%float.
Proof. reflexivity. Qed.

(** The judge's scores for the ratings [0..5]. *)
Example judge_score_table :
  map (fun rating => option_map (fun f => (f * 0.2)%float) (float_of_int rating))
      [0; 1; 2; 3; 4; 5]%Z
  = map Some [0.0; 0.2; 0.4; 0.60000000000000009; 0.8; 1.0]%float.
Proof. vm_compute. reflexivity. Qed.

(** C7 (as stated, refuted): with rating 3 the judge's score is
    [0.6000000000000001], and Python's [score == 0.6] is false. *)
Lemma judge_rating_3_not_0_6 :
  option_map snd (judge_verify_step (constant_judge "essential_valid" 3) "o" "s" [] [])
  = Some 0.60000000000000009%float
  /\ option_map (fun v => PrimFloat.eqb (snd v) 0.6%float)
       (judge_verify_step (constant_judge "essential_valid" 3) "o" "s" [] [])
     = Some false.
Proof. split; vm_compute; reflexivity. Qed.

(** C7 (amended): the judge's score is the binary64 product
    [float(rating) * 0.2], [float(rating)] being the rating rounded to the
    nearest binary64 value, next to the model's annotation; rating 0 gives
    [0.0], rating 5 gives exactly [1.0], rating 3 gives
    [0.6000000000000001], rating [2^63 + 5] gives [1.8446744073709552e18],
    and a rating out of the binary64 range such as [2^1024] makes
    [verify_step] raise [OverflowError]. *)
Theorem judge_verify_step_score (j : JudgeLmVerifier)
    (objective step_to_be_verified : string)
    (reasoning_chain chat_history : list string) :
  let judgement := llm_judge j objective step_to_be_verified
                     (join (nl ++ "  - ")%string reasoning_chain) chat_history in
  let result := judge_verify_step j objective step_to_be_verified reasoning_chain
                  chat_history in
  result = option_map (fun rating => (step_annotation judgement, (rating * 0.2)%float))
             (float_of_int (step_rating judgement))
  /\ (step_rating judgement = 0%Z -> option_map snd result = Some 0.0%float)
  /\ (step_rating judgement = 3%Z ->
      option_map snd result = Some 0.60000000000000009%float)
  /\ (step_rating judgement = 5%Z -> option_map snd result = Some 1.0%float)
  /\ (step_rating judgement = (2 ^ 63 + 5)%Z ->
      option_map snd result = Some 1.8446744073709552e18%float)
  /\ (step_rating judgement = (2 ^ 1024)%Z -> result = None).
Proof.
  intros judgement result. unfold result, judge_verify_step. fold judgement.
  split; [destruct (float_of_int (step_rating judgement)); reflexivity|].
  repeat split; intros ->; vm_compute; reflexivity.
Qed.

End VerifierFacts.

(* ================================================================= *)
(** * Properties of [ThreadPoolExecutor.map] *)

Module PoolFacts.

Import Pool.

Section Map.

Context {A B E : Type} (fn : A -> E + B).

Lemma futures_after_skip (j k : nat) (done : list nat) (xs : list A) :
  (j < k \/ k + length xs <= j) ->
  futures_after fn k (j :: done) xs = futures_after fn k done xs.
Proof.
  revert k. induction xs as [|x xs IH]; intros k Hj; simpl; [reflexivity|].
  destruct (Nat.eqb_spec k j); [simpl in Hj; lia|].
  rewrite IH by (simpl in Hj; lia). reflexivity.
Qed.

Lemma futures_after_set (xs : list A) (i k : nat) (done : list nat) (x : A) :
  nth_error xs i = Some x ->
  list_set i (Some (fn x)) (futures_after fn k done xs)
  = futures_after fn k ((k + i) :: done) xs.
Proof.
  revert i k. induction xs as [|y xs IH]; intros i k Hi; [destruct i; discriminate|].
  destruct i as [|i]; simpl in Hi |- *.
  - injection Hi as ->. rewrite Nat.add_0_r, Nat.eqb_refl. simpl.
    rewrite futures_after_skip by lia. reflexivity.
  - rewrite (IH i (S k) Hi).
    replace (k + S i) with (S k + i) by lia.
    destruct (Nat.eqb_spec k (S k + i)); [lia|]. reflexivity.
Qed.

Lemma run_schedule_futures (xs : list A) (sched done : list nat) :
  fold_left
    (fun futures i =>
       match nth_error xs i with
       | Some x => list_set i (Some (fn x)) futures
       | None => futures
       end)
    sched (futures_after fn 0 done xs)
  = futures_after fn 0 (rev sched ++ done) xs.
Proof.
  revert done. induction sched as [|i sched IH]; intros done; simpl; [reflexivity|].
  destruct (nth_error xs i) as [x|] eqn:Hi.
  - rewrite (futures_after_set xs i 0 done x Hi). simpl.
    rewrite IH, <- app_assoc. reflexivity.
  - rewrite <- futures_after_skip with (j := i) by
      (apply nth_error_None in Hi; right; simpl; exact Hi).
    rewrite IH, <- app_assoc. reflexivity.
Qed.

Lemma futures_after_none (xs : list A) :
  repeat None (length xs) = futures_after fn 0 [] xs.
Proof.
  generalize 0. induction xs as [|x xs IH]; intros k; simpl; [reflexivity|].
  rewrite (IH (S k)). reflexivity.
Qed.

Lemma futures_after_all (xs : list A) (k : nat) (done : list nat) :
  (forall i, k <= i < k + length xs -> In i done) ->
  futures_after fn k done xs = map (fun x => Some (fn x)) xs.
Proof.
  revert k. induction xs as [|x xs IH]; intros k Hall; simpl; [reflexivity|].
  assert (Hk : existsb (Nat.eqb k) done = true).
  { apply existsb_exists. exists k. split; [apply Hall; simpl; lia | apply Nat.eqb_refl]. }
  rewrite Hk, IH; [reflexivity|].
  intros i Hi. apply Hall. simpl. lia.
Qed.

Lemma collect_all (xs : list A) :
  collect (map (fun x => Some (fn x)) xs) = Some (map_seq fn xs).
Proof.
  induction xs as [|x xs IH]; simpl; [reflexivity|].
  destruct (fn x) as [e|b]; [reflexivity|].
  rewrite IH. destruct (map_seq fn xs); reflexivity.
Qed.

(** Whatever the completion order, as long as every submitted task runs,
    [executor.map] yields what the sequential map yields. *)
Lemma pool_map_complete (xs : list A) (sched : list nat) :
  (forall i, i < length xs -> In i sched) ->
  pool_map fn xs sched = Some (map_seq fn xs).
Proof.
  intros Hall. unfold pool_map, run_schedule.
  rewrite futures_after_none, run_schedule_futures, app_nil_r.
  rewrite futures_after_all; [apply collect_all|].
  intros i Hi. apply in_rev. rewrite rev_involutive. apply Hall. lia.
Qed.

Lemma pool_map_permutation (xs : list A) (sched : list nat) :
  Permutation sched (seq 0 (length xs)) ->
  pool_map fn xs sched = Some (map_seq fn xs).
Proof.
  intros Hp. apply pool_map_complete. intros i Hi.
  apply (Permutation_in _ (Permutation_sym Hp)). apply in_seq. lia.
Qed.

Lemma map_seq_inr (xs : list A) (ys : list B) :
  map_seq fn xs = inr ys ->
  length ys = length xs
  /\ forall i x, nth_error xs i = Some x ->
       exists y, nth_error ys i = Some y /\ fn x = inr y.
Proof.
  revert ys. induction xs as [|x xs IH]; intros ys H; simpl in H.
  - injection H as <-. split; [reflexivity|]. intros [|i] x Hx; discriminate.
  - destruct (fn x) as [e|b] eqn:Hx; [discriminate|].
    destruct (map_seq fn xs) as [e|bs]; [discriminate|].
    injection H as <-. destruct (IH bs eq_refl) as [Hlen Hnth].
    split; [simpl; rewrite Hlen; reflexivity|].
    intros [|i] x' Hx'; simpl in Hx'.
    + injection Hx' as <-. exists b. split; [reflexivity | exact Hx].
    + apply (Hnth i x' Hx').
Qed.

End Map.

End PoolFacts.

(* ================================================================= *)
(** * Properties of [VerifiedQA] *)

Module OrchestratorFacts.

Import Verifiers Pool PoolFacts Orchestrator Demo.

(** A task of the fan-out that returns yields its step and its score. *)
Lemma process_step_inr (bypass : bool) (qa : VerifiedQA) (sm : MessageWithUnderstanding)
    (chat_history : list string) (message : string) (steps : list string)
    (step : string) (r : string * float) :
  process_step bypass qa sm chat_history message steps step = inr r ->
  r = (step, snd (verify_step (step_verifier qa) (what_is_user_objective sm) step
                    steps (app chat_history [message]))).
Proof.
  unfold process_step.
  destruct (verify_step (step_verifier qa) (what_is_user_objective sm) step steps
              (app chat_history [message])) as [annotation score].
  destruct (dspy_suggest _ _ _); intros H; [discriminate | injection H as <-; reflexivity].
Qed.

(** C4: for every completion order of the fan-out (any permutation of the
    step indices), [executor.map(process_step, steps)] gives the result of
    the sequential map; when it returns, it returns one [(step, score)] per
    step, the [i]-th for the [i]-th step. This holds whether or not the
    pool threads bypass the per-step suggestion. *)
Theorem fan_out_input_order (bypass : bool) (qa : VerifiedQA)
    (sm : MessageWithUnderstanding)
    (chat_history : list string) (message : string) (steps : list string)
    (sched : list nat) :
  Permutation sched (seq 0 (length steps)) ->
  pool_map (process_step bypass qa sm chat_history message steps) steps sched
  = Some (map_seq (process_step bypass qa sm chat_history message steps) steps)
  /\ (forall chosen_steps,
        pool_map (process_step bypass qa sm chat_history message steps) steps sched
        = Some (inr chosen_steps) ->
        length chosen_steps = length steps
        /\ forall i step, nth_error steps i = Some step ->
             nth_error chosen_steps i
             = Some (step, snd (verify_step (step_verifier qa)
                                  (what_is_user_objective sm) step steps
                                  (app chat_history [message])))).
Proof.
  intros Hperm. rewrite (pool_map_permutation _ steps sched Hperm).
  split; [reflexivity|].
  intros chosen_steps H. injection H as H.
  destruct (map_seq_inr _ steps chosen_steps H) as [Hlen Hnth].
  split; [exact Hlen|].
  intros i step Hi. destruct (Hnth i step Hi) as (y & Hy & Hstep).
  rewrite Hy, (process_step_inr _ _ _ _ _ _ _ _ Hstep). reflexivity.
Qed.

Lemma fan_out_input_order_witness :
  Permutation [2; 1; 0] (seq 0 (length (Segmenter.rationale_to_steps demo_rationale)))
  /\ pool_map (process_step false (VerifiedQA_init accepting_verifier None)
                 (demo_understanding [] "m") [] "m"
                 (Segmenter.rationale_to_steps demo_rationale))
       (Segmenter.rationale_to_steps demo_rationale) [2; 1; 0]
     = Some (map_seq (process_step false (VerifiedQA_init accepting_verifier None)
                        (demo_understanding [] "m") [] "m"
                        (Segmenter.rationale_to_steps demo_rationale))
               (Segmenter.rationale_to_steps demo_rationale)).
Proof.
  assert (Hp : Permutation [2; 1; 0]
                 (seq 0 (length (Segmenter.rationale_to_steps demo_rationale)))).
  { vm_compute. apply Permutation_cons_app with (l1 := [0; 1]) (l2 := []). simpl.
    apply Permutation_cons_app with (l1 := [0]) (l2 := []). simpl. apply Permutation_refl. }
  split; [exact Hp|].
  apply (proj1 (fan_out_input_order false (VerifiedQA_init accepting_verifier None)
                  (demo_understanding [] "m") [] "m"
                  (Segmenter.rationale_to_steps demo_rationale) [2; 1; 0] Hp)).
Defined.

(** The per-step check reads the step verifier only. *)
Lemma process_step_objective_verifier (bypass : bool) (qa : VerifiedQA)
    (ov : StepVerifier) :
  process_step bypass {| step_verifier := step_verifier qa; objective_verifier := ov |}
  = process_step bypass qa.
Proof. reflexivity. Qed.

Section Forward.

Variable message_understanding : list string -> string -> MessageWithUnderstanding.
Variable str_of_message : MessageWithUnderstanding -> string.
Variable task : string -> Prediction.
Variable conversational : string -> string -> string -> string.
Variable bypass_suggest : bool.
Variable worker_bypass_suggest : bool.

Local Abbreviation fwd := (forward message_understanding str_of_message task conversational).

(** The test of the final [dspy.Suggest] compares a tuple with a string. *)
Lemma objective_suggest_result_false (v : verdict) :
  objective_suggest_result v = false.
Proof. destruct v. reflexivity. Qed.

(** C2 (the final check never passes): whatever the objective verifier
    answers, [ESSENTIAL_AND_VALID] included, the final [dspy.Suggest] test
    is false. So, unless [bypass_suggest] is set, [forward] never returns
    normally; and in either setting the outcome of [forward] is the same
    whatever verifier checks the objective. *)
Theorem forward_objective_suggest_fails (qa : VerifiedQA) (sched : list nat)
    (message : string) (chat_history : list string) :
  (forall score, objective_suggest_result
                   (annotation_value ESSENTIAL_AND_VALID, score) = false)
  /\ (exists failure,
        snd (fwd false worker_bypass_suggest qa sched message chat_history) = inl failure)
  /\ (forall ov : StepVerifier,
        snd (fwd bypass_suggest worker_bypass_suggest
               {| step_verifier := step_verifier qa; objective_verifier := ov |}
               sched message chat_history)
        = snd (fwd bypass_suggest worker_bypass_suggest qa sched message chat_history)).
Proof.
  split; [intros score; apply objective_suggest_result_false|]. split.
  - unfold forward.
    destruct (negb _); [eexists; reflexivity|].
    destruct (pool_map _ _ sched) as [[e|chosen_steps]|]; [eexists; reflexivity | |].
    + cbv zeta. rewrite objective_suggest_result_false. eexists. reflexivity.
    + eexists. reflexivity.
  - intros ov. unfold forward. rewrite process_step_objective_verifier.
    destruct (negb _); [reflexivity|].
    destruct (pool_map _ _ sched) as [[e|chosen_steps]|]; [reflexivity | | reflexivity].
    cbv zeta. rewrite !objective_suggest_result_false.
    destruct (dspy_suggest bypass_suggest false objective_suggest_msg); reflexivity.
Qed.

(** C3 (amended): the response generator of step (7) receives the raw
    message, the string of the structured message and, as its [rationale],
    the [answer] field of the prediction of step (2). *)
Theorem forward_conversational_inputs (qa : VerifiedQA) (sched : list nat)
    (message : string) (chat_history : list string) (raw sm_str rat : string) :
  In (EvConversational raw sm_str rat)
     (fst (fwd bypass_suggest worker_bypass_suggest qa sched message chat_history)) ->
  raw = message
  /\ sm_str = str_of_message (message_understanding chat_history message)
  /\ rat = answer (task (str_of_message (message_understanding chat_history message))).
Proof.
  unfold forward.
  destruct (negb _); [simpl; intros [H|[H|[]]]; discriminate|].
  destruct (pool_map _ _ sched) as [[e|chosen_steps]|];
    [simpl; intros [H|[H|[H|[]]]]; discriminate | |
     simpl; intros [H|[H|[H|[]]]]; discriminate].
  destruct (dspy_suggest _ _ _); simpl;
    intros [H|[H|[H|[H|[H|[]]]]]]; try discriminate;
    injection H as <- <- <-; auto.
Qed.

(** The objective-level verification of [forward] is made by
    [qa.objective_verifier]. *)
Lemma forward_objective_event (qa : VerifiedQA) (sched : list nat)
    (message : string) (chat_history : list string)
    (objective step : string) (chain history : list string) (result : verdict) :
  In (EvVerifyObjective objective step chain history result)
     (fst (fwd bypass_suggest worker_bypass_suggest qa sched message chat_history)) ->
  result = verify_step (objective_verifier qa) objective step chain history.
Proof.
  unfold forward.
  destruct (negb _); [simpl; intros [H|[H|[]]]; discriminate|].
  destruct (pool_map _ _ sched) as [[e|chosen_steps]|];
    [simpl; intros [H|[H|[H|[]]]]; discriminate | |
     simpl; intros [H|[H|[H|[]]]]; discriminate].
  destruct (dspy_suggest _ _ _); simpl;
    intros [H|[H|[H|[H|[H|[]]]]]]; try discriminate;
    injection H as <- <- <- <- <-; reflexivity.
Qed.

(** C10: built with [objective_verifier=None], a [VerifiedQA] verifies the
    response with its step verifier. *)
Theorem objective_verifier_defaults_to_step_verifier (sv : StepVerifier) :
  objective_verifier (VerifiedQA_init sv None) = sv
  /\ forall sched message chat_history objective step chain history result,
       In (EvVerifyObjective objective step chain history result)
          (fst (fwd bypass_suggest worker_bypass_suggest (VerifiedQA_init sv None)
                  sched message chat_history)) ->
       result = verify_step sv objective step chain history.
Proof.
  split; [reflexivity|].
  intros sched message chat_history objective step chain history result H.
  apply (forward_objective_event _ _ _ _ _ _ _ _ _ H).
Qed.

End Forward.

(** [forward] run on the demo collaborators with the classifier verifier
    accepting everything. *)
Lemma forward_demo_trace :
  forward demo_understanding demo_str demo_task demo_conversational false false
    (VerifiedQA_init accepting_verifier None) [2; 1; 0] "m" []
  = ([EvUnderstand [] "m"; EvTask "build a go-kart";
      EvFanOut (Segmenter.rationale_to_steps demo_rationale);
      EvConversational "m" "build a go-kart" "Build the frame, then fit the engine.";
      EvVerifyObjective "build a go-kart" "Build the frame, then fit the engine."
        (Segmenter.rationale_to_steps demo_rationale) [] ("essential_valid"%string, 1.0%float)],
     inl (DSPySuggestionError objective_suggest_msg)).
Proof. vm_compute. reflexivity. Qed.

(** C3 (as stated, refuted): the rationale segmented and verified is
    [demo_rationale], but the response generator receives the answer
    ["Build the frame, then fit the engine."] as its rationale. *)
Lemma forward_response_not_from_rationale :
  In (EvFanOut (Segmenter.rationale_to_steps demo_rationale))
     (fst (forward demo_understanding demo_str demo_task demo_conversational false false
             (VerifiedQA_init accepting_verifier None) [2; 1; 0] "m" []))
  /\ In (EvConversational "m" "build a go-kart" "Build the frame, then fit the engine.")
        (fst (forward demo_understanding demo_str demo_task demo_conversational false false
                (VerifiedQA_init accepting_verifier None) [2; 1; 0] "m" []))
  /\ "Build the frame, then fit the engine."%string <> demo_rationale.
Proof.
  rewrite forward_demo_trace. simpl.
  split; [auto | split; [auto | unfold demo_rationale; discriminate]].
Qed.

Lemma forward_conversational_inputs_witness :
  In (EvConversational "m" "build a go-kart" "Build the frame, then fit the engine.")
     (fst (forward demo_understanding demo_str demo_task demo_conversational false false
             (VerifiedQA_init accepting_verifier None) [2; 1; 0] "m" []))
  /\ "Build the frame, then fit the engine."%string
     = answer (demo_task (demo_str (demo_understanding [] "m"))).
Proof.
  assert (H : In (EvConversational "m" "build a go-kart"
                    "Build the frame, then fit the engine.")
                 (fst (forward demo_understanding demo_str demo_task demo_conversational
                         false false
                         (VerifiedQA_init accepting_verifier None) [2; 1; 0] "m" []))).
  { rewrite forward_demo_trace. simpl. auto. }
  split; [exact H|].
  apply (proj2 (proj2 (forward_conversational_inputs demo_understanding demo_str
                         demo_task demo_conversational false false _ _ _ _ _ _ _ H))).
Defined.

(** The failing input of C2: every verification answers
    [ESSENTIAL_AND_VALID], the objective verifier included, and [forward]
    still raises the objective-level suggestion error. *)
Example forward_demo_objective_suggestion_error :
  snd (forward demo_understanding demo_str demo_task demo_conversational false false
         (VerifiedQA_init accepting_verifier None) [2; 1; 0] "m" [])
  = inl (DSPySuggestionError objective_suggest_msg).
Proof. rewrite forward_demo_trace. reflexivity. Qed.

(** With [bypass_suggest] set in every thread (as on [chat]'s last
    backtracking attempt, if the pool threads see the setting), a rejecting
    verifier no longer stops [forward]: it returns every step. *)
Example forward_demo_bypassed :
  snd (forward demo_understanding demo_str demo_task demo_conversational true true
         (VerifiedQA_init rejecting_verifier None) [1; 2; 0] "m" [])
  = inr (map (fun step => (step, 0.0%float)) (Segmenter.rationale_to_steps demo_rationale),
         "Build the frame, then fit the engine."%string).
Proof. vm_compute. reflexivity. Qed.

(** With a rejecting verifier the fan-out raises the per-step suggestion
    error, whatever the completion order. *)
Example forward_demo_step_suggestion_error :
  snd (forward demo_understanding demo_str demo_task demo_conversational false false
         (VerifiedQA_init rejecting_verifier None) [1; 2; 0] "m" [])
  = inl (DSPySuggestionError step_suggest_msg).
Proof. vm_compute. reflexivity. Qed.

(** A two-sentence rationale stops at the step-count assertion. *)
Example forward_demo_assertion :
  snd (forward demo_understanding demo_str
         (fun _ => {| rationale := "We gather the materials. Then we are done.";
                      answer := "Done." |})
         demo_conversational true true (VerifiedQA_init accepting_verifier None) [] "m" [])
  = inl (DSPyAssertionError assert_msg).
Proof. vm_compute. reflexivity. Qed.

End OrchestratorFacts.

(* ================================================================= *)
(** * Further properties of the segmenter *)

Module SegmenterExtra.

Import Segmenter SegmenterFacts.

Lemma split_go_roundtrip (s prev cur : list ascii) :
  interleave (split_go prev cur s) (findall_go prev s) = rev cur ++ s
  /\ length (split_go prev cur s) = S (length (findall_go prev s))
  /\ Forall (fun c => is_space_char c = true) (findall_go prev s).
Proof.
  revert prev cur. induction s as [|c s IH]; intros prev cur; simpl.
  - rewrite app_nil_r. repeat split; constructor.
  - destruct (split_here prev c) eqn:Hc.
    + destruct (IH (c :: prev) []) as (Hi & Hl & Hf). simpl.
      rewrite Hi, Hl. repeat split.
      constructor; [| exact Hf].
      unfold split_here in Hc. apply andb_prop in Hc. apply Hc.
    + destruct (IH (c :: prev) (c :: cur)) as (Hi & Hl & Hf).
      rewrite Hi, Hl. simpl. rewrite <- app_assoc. repeat split. exact Hf.
Qed.

(** [re.split] round trip: the pieces, put back together with the matched
    separators ([re.findall]) between them, give the input back; there is
    one more piece than separators, and every separator is a whitespace
    character. *)
Theorem re_split_roundtrip (s : list ascii) :
  interleave (re_split s) (re_findall s) = s
  /\ length (re_split s) = S (length (re_findall s))
  /\ Forall (fun c => is_space_char c = true) (re_findall s).
Proof. apply (split_go_roundtrip s [] []). Qed.

Lemma count_space_app (a b : list ascii) :
  count_space (a ++ b) = count_space a + count_space b.
Proof. unfold count_space. rewrite filter_app, length_app. reflexivity. Qed.

Lemma split_go_count_space (s prev cur : list ascii) :
  count_space (concat (split_go prev cur s)) <= count_space (rev cur ++ s).
Proof.
  revert prev cur. induction s as [|c s IH]; intros prev cur; simpl.
  - rewrite !app_nil_r. lia.
  - destruct (split_here prev c).
    + simpl. specialize (IH (c :: prev) []). simpl in IH.
      rewrite !count_space_app. change (c :: s) with ([c] ++ s).
      rewrite count_space_app. lia.
    + specialize (IH (c :: prev) (c :: cur)). simpl in IH.
      rewrite <- app_assoc in IH. exact IH.
Qed.

Lemma filter_count_bound (m : nat) (pieces : list (list ascii)) :
  length (filter (fun p => m <=? count_space p) pieces) * m
  <= count_space (concat pieces).
Proof.
  induction pieces as [|p pieces IH]; simpl; [lia|].
  rewrite count_space_app.
  destruct (Nat.leb_spec m (count_space p)); simpl; lia.
Qed.

(** A rationale with [n] space characters yields at most [n / max_spaces]
    steps: each step holds [max_spaces] of the rationale's spaces. *)
Theorem rationale_to_steps_count_bound (r : string) (max_spaces : nat) :
  length (rationale_to_steps_gen r max_spaces) * max_spaces
  <= count_space (list_ascii_of_string r).
Proof.
  unfold rationale_to_steps_gen. rewrite length_map.
  eapply Nat.le_trans; [apply filter_count_bound|].
  apply (split_go_count_space (list_ascii_of_string r) [] []).
Qed.

Lemma no_split_without_boundary (s prev : list ascii) :
  lb_boundary prev = false ->
  (forall c, In c s -> c <> "."%char /\ c <> "?"%char) ->
  no_split prev s = true.
Proof.
  revert prev. induction s as [|c s IH]; intros prev Hprev Hs; simpl; [reflexivity|].
  unfold split_here. rewrite Hprev, !Bool.andb_false_r. simpl.
  apply IH; [| intros d Hd; apply Hs; right; exact Hd].
  destruct (Hs c (or_introl eq_refl)) as [Hdot Hq]. simpl.
  destruct (Ascii.eqb_spec c "."); [contradiction|].
  destruct (Ascii.eqb_spec c "?"); [contradiction|]. reflexivity.
Qed.

(** A rationale without any ['.'] or ['?'] is never split: it is the only
    step when it has [max_spaces] spaces, and there is no step otherwise. *)
Theorem rationale_to_steps_no_boundary (r : string) (max_spaces : nat) :
  (forall c, In c (list_ascii_of_string r) -> c <> "."%char /\ c <> "?"%char) ->
  rationale_to_steps_gen r max_spaces
  = if max_spaces <=? count_space (list_ascii_of_string r) then [r] else [].
Proof.
  intros Hr. unfold rationale_to_steps_gen.
  rewrite re_split_no_split by (apply no_split_without_boundary; [reflexivity | exact Hr]).
  cbn [filter]. destruct (max_spaces <=? count_space (list_ascii_of_string r)); simpl;
    [rewrite string_of_list_ascii_of_string|]; reflexivity.
Qed.

Lemma rationale_to_steps_no_boundary_witness :
  (forall c, In c (list_ascii_of_string "gather all the materials")
             -> c <> "."%char /\ c <> "?"%char)
  /\ rationale_to_steps_gen "gather all the materials" 2
     = if 2 <=? count_space (list_ascii_of_string "gather all the materials")
       then ["gather all the materials"%string] else [].
Proof.
  assert (H : forall c, In c (list_ascii_of_string "gather all the materials")
                        -> c <> "."%char /\ c <> "?"%char).
  { intros c Hc. simpl in Hc.
    repeat (destruct Hc as [<- | Hc]; [split; discriminate |]). destruct Hc. }
  split; [exact H | apply (rationale_to_steps_no_boundary _ 2 H)].
Defined.

Lemma filter_map_string (f : list ascii -> bool) (g : string -> bool)
    (pieces : list (list ascii)) :
  (forall p, g (string_of_list_ascii p) = f p) ->
  filter g (map string_of_list_ascii pieces) = map string_of_list_ascii (filter f pieces).
Proof.
  intros Hfg. induction pieces as [|p pieces IH]; simpl; [reflexivity|].
  rewrite Hfg. destruct (f p); simpl; rewrite IH; reflexivity.
Qed.

(** Raising [max_spaces] only drops steps: the steps for a larger bound are
    the steps for a smaller one that have enough spaces, in the same
    order. *)
Theorem rationale_to_steps_monotone (r : string) (m1 m2 : nat) :
  m1 <= m2 ->
  rationale_to_steps_gen r m2
  = filter (fun s => m2 <=? count_space (list_ascii_of_string s))
      (rationale_to_steps_gen r m1).
Proof.
  intros Hm. unfold rationale_to_steps_gen.
  rewrite (filter_map_string (fun p => m2 <=? count_space p))
    by (intros p; rewrite list_ascii_of_string_of_list_ascii; reflexivity).
  f_equal. induction (re_split (list_ascii_of_string r)) as [|p ps IH]; simpl;
    [reflexivity|].
  destruct (Nat.leb_spec m2 (count_space p)).
  - replace (m1 <=? count_space p) with true by (symmetry; apply Nat.leb_le; lia).
    simpl. replace (m2 <=? count_space p) with true by (symmetry; apply Nat.leb_le; lia).
    rewrite IH. reflexivity.
  - destruct (m1 <=? count_space p); simpl; [|exact IH].
    replace (m2 <=? count_space p) with false by (symmetry; apply Nat.leb_gt; lia).
    exact IH.
Qed.

Lemma rationale_to_steps_monotone_witness :
  2 <= 3
  /\ rationale_to_steps_gen "We do it. Then we go on now." 3
     = filter (fun s => 3 <=? count_space (list_ascii_of_string s))
         (rationale_to_steps_gen "We do it. Then we go on now." 2).
Proof. split; [lia | apply (rationale_to_steps_monotone _ 2 3); lia]. Defined.

End SegmenterExtra.

(* ================================================================= *)
(** * Further properties of the verifiers, the pool and [forward] *)

Module OrchestratorExtra.

Import Verifiers Pool PoolFacts Orchestrator Demo.

Section Map.

Context {A B E : Type} (fn : A -> E + B).

Lemma map_seq_inl_iff (xs : list A) (e : E) :
  map_seq fn xs = inl e <->
  exists i x, nth_error xs i = Some x /\ fn x = inl e
              /\ forall j y, j < i -> nth_error xs j = Some y -> exists b, fn y = inr b.
Proof.
  induction xs as [|x xs IH]; simpl.
  - split; [discriminate | intros (i & y & Hy & _); destruct i; discriminate].
  - destruct (fn x) as [e'|b] eqn:Hx.
    + split.
      * intros H. injection H as <-. exists 0, x. split; [reflexivity|].
        split; [exact Hx | intros j y Hj; lia].
      * intros ([|i] & y & Hy & Hfy & Hbefore); simpl in Hy.
        -- injection Hy as <-. congruence.
        -- destruct (Hbefore 0 x ltac:(lia) eq_refl) as [b Hb]. congruence.
    + destruct (map_seq fn xs) as [e'|bs] eqn:Hm.
      * split.
        -- intros H. injection H as <-.
           destruct (proj1 IH eq_refl) as (i & y & Hy & Hfy & Hbefore).
           exists (S i), y. split; [exact Hy|]. split; [exact Hfy|].
           intros [|j] z Hj Hz; simpl in Hz;
             [injection Hz as <-; exists b; exact Hx | apply (Hbefore j z); [lia | exact Hz]].
        -- intros ([|i] & y & Hy & Hfy & Hbefore); simpl in Hy;
             [injection Hy as <-; congruence|].
           assert (H : (inl e' : E + list B) = inl e).
           { apply IH. exists i, y. split; [exact Hy|]. split; [exact Hfy|].
             intros j z Hj Hz. apply (Hbefore (S j) z); [lia | exact Hz]. }
           exact H.
      * split; [discriminate|].
        intros (i & y & Hy & Hfy & Hbefore).
        assert (Hall : forall k z, nth_error xs k = Some z -> exists c, fn z = inr c).
        { intros k z Hz. destruct (map_seq_inr fn xs bs Hm) as [_ Hn].
          destruct (Hn k z Hz) as (c & _ & Hc). exists c. exact Hc. }
        destruct i as [|i]; simpl in Hy; [injection Hy as <-; congruence|].
        destruct (Hall i y Hy) as [c Hc]. congruence.
Qed.

(** [executor.map] raises the exception of the first failing item in input
    order, whatever the completion order: the error is [e] exactly when
    some item fails with [e] and every item before it succeeds. *)
Theorem pool_map_first_failure (xs : list A) (sched : list nat) (e : E) :
  Permutation sched (seq 0 (length xs)) ->
  (pool_map fn xs sched = Some (inl e) <->
   exists i x, nth_error xs i = Some x /\ fn x = inl e
               /\ forall j y, j < i -> nth_error xs j = Some y -> exists b, fn y = inr b).
Proof.
  intros Hp. rewrite (pool_map_permutation fn xs sched Hp).
  rewrite <- map_seq_inl_iff. split; [intros H; injection H as ->; reflexivity | intros ->; reflexivity].
Qed.

Lemma collect_futures_inr (xs : list A) (k : nat) (done : list nat) (ys : list B) :
  collect (futures_after fn k done xs) = Some (inr ys) ->
  forall x, In x xs -> exists y, fn x = inr y.
Proof.
  revert k ys. induction xs as [|x xs IH]; intros k ys H z Hz; [destruct Hz|].
  simpl in H. destruct (existsb (Nat.eqb k) done); [|discriminate].
  destruct (fn x) as [e|b] eqn:Hx; [discriminate|].
  destruct (collect (futures_after fn (S k) done xs)) as [[e|bs]|] eqn:Hc; try discriminate.
  destruct Hz as [<- | Hz]; [exists b; exact Hx | apply (IH (S k) bs Hc z Hz)].
Qed.

(** Whatever the completion order, even one that leaves tasks unrun,
    [executor.map] returns normally only if every item succeeded. *)
Lemma pool_map_inr_all (xs : list A) (sched : list nat) (ys : list B) :
  pool_map fn xs sched = Some (inr ys) ->
  forall x, In x xs -> exists y, fn x = inr y.
Proof.
  unfold pool_map, run_schedule.
  rewrite (futures_after_none fn xs), (run_schedule_futures fn xs sched []), app_nil_r.
  apply collect_futures_inr.
Qed.

End Map.

Lemma pool_map_first_failure_witness :
  Permutation [1; 0] (seq 0 (length [true; false]))
  /\ (pool_map (fun b : bool => if b then inr b else inl 7) [true; false] [1; 0]
        = Some (inl 7) <->
      exists i x, nth_error [true; false] i = Some x
                  /\ (fun b : bool => if b then inr b else inl 7) x = inl 7
                  /\ forall j y, j < i -> nth_error [true; false] j = Some y ->
                       exists b, (fun b : bool => if b then inr b else inl 7) y = inr b).
Proof.
  assert (Hp : Permutation [1; 0] (seq 0 (length [true; false]))).
  { simpl. apply perm_swap. }
  split; [exact Hp | apply (pool_map_first_failure _ [true; false] [1; 0] 7 Hp)].
Defined.

Lemma process_step_inl (bypass : bool) (qa : VerifiedQA) (sm : MessageWithUnderstanding)
    (chat_history : list string) (message : string) (steps : list string)
    (step : string) (e : Failure) :
  process_step bypass qa sm chat_history message steps step = inl e ->
  e = DSPySuggestionError step_suggest_msg.
Proof.
  unfold process_step, dspy_suggest.
  destruct (verify_step _ _ _ _ _) as [annotation score].
  destruct (String.eqb annotation _); [intros H; discriminate|].
  destruct bypass; intros H; [discriminate | injection H as <-; reflexivity].
Qed.

Lemma process_step_rejects (qa : VerifiedQA) (sm : MessageWithUnderstanding)
    (chat_history : list string) (message : string) (steps : list string)
    (step : string) :
  fst (verify_step (step_verifier qa) (what_is_user_objective sm) step steps
         (app chat_history [message])) <> "essential_valid"%string ->
  process_step false qa sm chat_history message steps step
  = inl (DSPySuggestionError step_suggest_msg).
Proof.
  unfold process_step, dspy_suggest.
  destruct (verify_step _ _ _ _ _) as [annotation score]. simpl. intros Hne.
  destruct (String.eqb_spec annotation "essential_valid"); [contradiction | reflexivity].
Qed.

Lemma process_step_accepts (qa : VerifiedQA) (sm : MessageWithUnderstanding)
    (chat_history : list string) (message : string) (steps : list string)
    (step : string) (r : string * float) :
  process_step false qa sm chat_history message steps step = inr r ->
  fst (verify_step (step_verifier qa) (what_is_user_objective sm) step steps
         (app chat_history [message])) = "essential_valid"%string.
Proof.
  unfold process_step, dspy_suggest.
  destruct (verify_step _ _ _ _ _) as [annotation score]. simpl.
  destruct (String.eqb_spec annotation "essential_valid"); [auto | discriminate].
Qed.

(** A step passes [process_step] when the pool threads bypass the
    suggestion or when its annotation is ["essential_valid"]. *)
Lemma process_step_passes (bypass : bool) (qa : VerifiedQA) (sm : MessageWithUnderstanding)
    (chat_history : list string) (message : string) (steps : list string)
    (step : string) :
  bypass = true
  \/ fst (verify_step (step_verifier qa) (what_is_user_objective sm) step steps
            (app chat_history [message])) = "essential_valid"%string ->
  process_step bypass qa sm chat_history message steps step
  = inr (step, snd (verify_step (step_verifier qa) (what_is_user_objective sm) step
                      steps (app chat_history [message]))).
Proof.
  unfold process_step, dspy_suggest.
  destruct (verify_step _ _ _ _ _) as [annotation score]. simpl.
  intros [-> | ->]; [destruct (String.eqb annotation _); reflexivity | reflexivity].
Qed.

Lemma map_seq_some_inl {A B E} (fn : A -> E + B) (xs : list A) (x : A) (e : E) :
  In x xs -> fn x = inl e -> exists e', map_seq fn xs = inl e' /\ exists y, In y xs /\ fn y = inl e'.
Proof.
  induction xs as [|z xs IH]; intros Hin Hx; [destruct Hin|]. simpl.
  destruct (fn z) as [e'|b] eqn:Hz; [exists e'; split; [reflexivity | exists z; auto]|].
  destruct Hin as [<- | Hin]; [congruence|].
  destruct (IH Hin Hx) as (e' & He' & y & Hy & Hfy).
  rewrite He'. exists e'. split; [reflexivity | exists y; auto].
Qed.

Lemma map_seq_all_inr {A B E} (fn : A -> E + B) (g : A -> B) (xs : list A) :
  (forall x, In x xs -> fn x = inr (g x)) -> map_seq fn xs = inr (map g xs).
Proof.
  induction xs as [|x xs IH]; intros Hall; simpl; [reflexivity|].
  rewrite (Hall x (or_introl eq_refl)), IH; [reflexivity|].
  intros y Hy. apply Hall. right. exact Hy.
Qed.

Section Forward.

Variable message_understanding : list string -> string -> MessageWithUnderstanding.
Variable str_of_message : MessageWithUnderstanding -> string.
Variable task : string -> Prediction.
Variable conversational : string -> string -> string -> string.
Variable bypass_suggest : bool.

Local Abbreviation fwd := (forward message_understanding str_of_message task conversational).

(** When the pool threads do not bypass the per-step suggestion, and one
    of the (more than two) steps is not annotated ["essential_valid"] by
    the step verifier, then, for every completion order of the fan-out,
    [forward] raises the per-step suggestion error right after the
    fan-out: the response generator and the objective verifier are never
    called. *)
Theorem forward_rejected_step_stops (qa : VerifiedQA) (sched : list nat)
    (message : string) (chat_history : list string) (step : string) :
  let sm := message_understanding chat_history message in
  let steps := Segmenter.rationale_to_steps (rationale (task (str_of_message sm))) in
  2 < length steps ->
  Permutation sched (seq 0 (length steps)) ->
  In step steps ->
  fst (verify_step (step_verifier qa) (what_is_user_objective sm) step steps
         (app chat_history [message])) <> "essential_valid"%string ->
  fwd bypass_suggest false qa sched message chat_history
  = ([EvUnderstand chat_history message; EvTask (str_of_message sm); EvFanOut steps],
     inl (DSPySuggestionError step_suggest_msg)).
Proof.
  intros sm steps Hlen Hp Hin Hrej. unfold forward. fold sm. fold steps.
  replace (negb (2 <? length steps)) with false
    by (symmetry; apply Bool.negb_false_iff, Nat.ltb_lt; exact Hlen).
  rewrite (pool_map_permutation _ steps sched Hp).
  destruct (map_seq_some_inl (process_step false qa sm chat_history message steps) steps step
              _ Hin (process_step_rejects qa sm chat_history message steps step Hrej))
    as (e & He & y & _ & Hy).
  rewrite He, (process_step_inl _ _ _ _ _ _ _ _ Hy). reflexivity.
Qed.

(** When the pool threads do not bypass the per-step suggestion, [forward]
    calls the response generator only after the step-count assertion
    passed and every step was annotated ["essential_valid"], whatever order
    the step verifications complete in (even an incomplete one). *)
Theorem forward_conversational_after_all_steps (qa : VerifiedQA) (sched : list nat)
    (message : string) (chat_history : list string) (raw sm_str rat : string) :
  let sm := message_understanding chat_history message in
  let steps := Segmenter.rationale_to_steps (rationale (task (str_of_message sm))) in
  In (EvConversational raw sm_str rat)
     (fst (fwd bypass_suggest false qa sched message chat_history)) ->
  2 < length steps
  /\ forall step, In step steps ->
       fst (verify_step (step_verifier qa) (what_is_user_objective sm) step steps
              (app chat_history [message])) = "essential_valid"%string.
Proof.
  intros sm steps. unfold forward. fold sm. fold steps.
  destruct (negb (2 <? length steps)) eqn:Hlen; [simpl; intros [H|[H|[]]]; discriminate|].
  apply Bool.negb_false_iff, Nat.ltb_lt in Hlen.
  destruct (pool_map _ _ sched) as [[e|chosen_steps]|] eqn:Hpool;
    [simpl; intros [H|[H|[H|[]]]]; discriminate | |
     simpl; intros [H|[H|[H|[]]]]; discriminate].
  intros _. split; [exact Hlen|]. intros step Hin.
  destruct (pool_map_inr_all _ steps sched chosen_steps Hpool step Hin) as [r Hr].
  apply (process_step_accepts _ _ _ _ _ _ _ Hr).
Qed.

(** A rationale with fewer than six space characters cannot give three
    steps of two spaces each: [forward] fails the step-count assertion
    before any verification. *)
Theorem forward_few_spaces_assertion (worker_bypass_suggest : bool) (qa : VerifiedQA)
    (sched : list nat) (message : string) (chat_history : list string) :
  let sm := message_understanding chat_history message in
  Segmenter.count_space (list_ascii_of_string (rationale (task (str_of_message sm)))) < 6 ->
  fwd bypass_suggest worker_bypass_suggest qa sched message chat_history
  = ([EvUnderstand chat_history message; EvTask (str_of_message sm)],
     inl (DSPyAssertionError assert_msg)).
Proof.
  intros sm Hspaces. unfold forward. fold sm.
  replace (negb _) with true; [reflexivity|].
  symmetry. apply Bool.negb_true_iff, Nat.ltb_ge.
  assert (Hb : length (Segmenter.rationale_to_steps (rationale (task (str_of_message sm)))) * 2
               <= Segmenter.count_space
                    (list_ascii_of_string (rationale (task (str_of_message sm))))).
  { unfold Segmenter.rationale_to_steps, Segmenter.rationale_to_steps_gen.
    rewrite length_map.
    eapply Nat.le_trans; [apply SegmenterExtra.filter_count_bound|].
    apply (SegmenterExtra.split_go_count_space _ [] []). }
  lia.
Qed.

End Forward.

(** With [bypass_suggest] set in the thread of [forward] (the last attempt
    of [chat]'s [backtrack_handler]), once there are more than two steps
    and the fan-out completes, [forward] returns normally with every step
    and its score, in input order, and the generated response; this takes
    either pool threads that also bypass the per-step suggestion, or steps
    all annotated ["essential_valid"]. The objective check, failing or
    not, is only logged. *)
Theorem forward_bypassed_returns (message_understanding : list string -> string -> MessageWithUnderstanding)
    (str_of_message : MessageWithUnderstanding -> string) (task : string -> Prediction)
    (conversational : string -> string -> string -> string)
    (worker_bypass_suggest : bool) (qa : VerifiedQA) (sched : list nat)
    (message : string) (chat_history : list string) :
  let sm := message_understanding chat_history message in
  let ans := task (str_of_message sm) in
  let steps := Segmenter.rationale_to_steps (rationale ans) in
  let score := fun step => snd (verify_step (step_verifier qa) (what_is_user_objective sm)
                                 step steps (app chat_history [message])) in
  2 < length steps ->
  Permutation sched (seq 0 (length steps)) ->
  (worker_bypass_suggest = true
   \/ forall step, In step steps ->
        fst (verify_step (step_verifier qa) (what_is_user_objective sm) step steps
               (app chat_history [message])) = "essential_valid"%string) ->
  snd (forward message_understanding str_of_message task conversational true
         worker_bypass_suggest qa sched message chat_history)
  = inr (map (fun step => (step, score step)) steps,
         conversational message (str_of_message sm) (answer ans)).
Proof.
  intros sm ans steps score Hlen Hp Hpass. unfold forward. fold sm. fold ans. fold steps.
  replace (negb (2 <? length steps)) with false
    by (symmetry; apply Bool.negb_false_iff, Nat.ltb_lt; exact Hlen).
  rewrite (pool_map_permutation _ steps sched Hp).
  rewrite (map_seq_all_inr _ (fun step => (step, score step)) steps).
  - cbv zeta. unfold dspy_suggest. destruct (objective_suggest_result _); reflexivity.
  - intros step Hin. apply process_step_passes.
    destruct Hpass as [Hb | Hall]; [left; exact Hb | right; apply Hall; exact Hin].
Qed.

Lemma forward_rejected_step_stops_witness :
  2 < length (Segmenter.rationale_to_steps demo_rationale)
  /\ forward demo_understanding demo_str demo_task demo_conversational true false
       (VerifiedQA_init rejecting_verifier None) [1; 0; 2] "m" []
     = ([EvUnderstand [] "m"; EvTask "build a go-kart";
         EvFanOut (Segmenter.rationale_to_steps demo_rationale)],
        inl (DSPySuggestionError step_suggest_msg)).
Proof.
  split; [vm_compute; lia|].
  apply (forward_rejected_step_stops demo_understanding demo_str demo_task
           demo_conversational true (VerifiedQA_init rejecting_verifier None) [1; 0; 2]
           "m" [] "First, gather materials."%string).
  - vm_compute. lia.
  - vm_compute. apply perm_swap.
  - vm_compute. left. reflexivity.
  - vm_compute. discriminate.
Defined.

Lemma forward_conversational_after_all_steps_witness :
  In (EvConversational "m" "build a go-kart" "Build the frame, then fit the engine.")
     (fst (forward demo_understanding demo_str demo_task demo_conversational true false
             (VerifiedQA_init accepting_verifier None) [2; 1; 0] "m" []))
  /\ 2 < length (Segmenter.rationale_to_steps demo_rationale).
Proof.
  assert (Hin : In (EvConversational "m" "build a go-kart"
                      "Build the frame, then fit the engine.")
                   (fst (forward demo_understanding demo_str demo_task demo_conversational
                           true false
                           (VerifiedQA_init accepting_verifier None) [2; 1; 0] "m" []))).
  { vm_compute. right. right. right. left. reflexivity. }
  split; [exact Hin|].
  apply (forward_conversational_after_all_steps demo_understanding demo_str demo_task
           demo_conversational _ _ _ _ _ _ _ _ Hin).
Defined.

Lemma forward_few_spaces_assertion_witness :
  Segmenter.count_space (list_ascii_of_string "Do it. Then stop now.") < 6
  /\ forward demo_understanding demo_str (fun _ => {| rationale := "Do it. Then stop now.";
                                                      answer := "done" |})
       demo_conversational false false (VerifiedQA_init accepting_verifier None) [] "m" []
     = ([EvUnderstand [] "m"; EvTask "build a go-kart"],
        inl (DSPyAssertionError assert_msg)).
Proof.
  split; [vm_compute; lia|].
  apply (forward_few_spaces_assertion demo_understanding demo_str
           (fun _ => {| rationale := "Do it. Then stop now."; answer := "done" |})
           demo_conversational false false).
  vm_compute. lia.
Defined.

Lemma forward_bypassed_returns_witness :
  2 < length (Segmenter.rationale_to_steps demo_rationale)
  /\ snd (forward demo_understanding demo_str demo_task demo_conversational true true
            (VerifiedQA_init rejecting_verifier None) [1; 0; 2] "m" [])
     = inr (map (fun step => (step, 0.0%float)) (Segmenter.rationale_to_steps demo_rationale),
            "Build the frame, then fit the engine."%string).
Proof.
  split; [vm_compute; lia|].
  apply (forward_bypassed_returns demo_understanding demo_str demo_task demo_conversational
           true (VerifiedQA_init rejecting_verifier None) [1; 0; 2] "m" []).
  - vm_compute. lia.
  - vm_compute. apply perm_swap.
  - left. reflexivity.
Defined.

End OrchestratorExtra.
